(** * Budget_planner: the [BudgetTracker] ledger of [Budget_tracker1.py]

    A shallow embedding of the class [BudgetTracker] and the properties of
    its methods, in two models of its numbers.

    The value model (first part) reads amounts as exact numbers: [Qc], the
    rationals in lowest terms, whose equality is Leibniz equality.  It is
    used for what does not depend on how Python rounds: which expenses are
    recorded and in what order, which keys a dict has, what is left
    unchanged, what raises [KeyError].
    - An expense is the dict [{"amount", "category", "date"}], a record with
      these three fields.  [datetime.datetime.now()] is an input of
      [add_expense]: the instant the clock shows during the call, as a [Z].
    - The dict built by [view_spending_by_category] is an association list
      in insertion order (Python dicts keep it); subscripting a missing key
      raises [KeyError], carried by the result type [res].
    - The dict returned by [spending_insights] has five fixed keys: a record.
    - [Module Ref] refines the value model with a store of list objects and
      references, for what is about object identity (what [view_expenses]
      hands out).

    [Module Py] (second part) is the class over Python's own numbers, [int]
    and binary64 [float], with rounding, mixed operands and
    [OverflowError].  Everything that depends on sums, products and
    comparisons of amounts is stated there. *)

From Stdlib Require Import QArith Qcanon SpecFloat.
From stdpp Require Import base numbers list strings gmap.

Local Open Scope Qc_scope.

(** ** Python values used by the class *)

(** [sum(...)]: starts from [0] and adds the items from left to right
    (exact here; with binary64 rounding in [Py.py_sum]). *)
Definition py_sum (xs : list Qc) : Qc := fold_left Qcplus xs 0.

(** [x > y] on numbers. *)
Definition py_gt (x y : Qc) : bool := bool_decide (y < x).

(** The literal [0.8], read as the exact 8/10 (value model only; the
    binary64 literal is [Py.lit_0_8]). *)
Definition lit_0_8 : Qc := Q2Qc (8 # 10).

(** Results of code that may raise [KeyError]. *)
Inductive res (A : Type) : Type :=
  | Ok (a : A)
  | KeyError (key : string).
Arguments Ok {A} a.
Arguments KeyError {A} key.

Global Instance res_eq_dec {A : Type} `{EqDecision A} : EqDecision (res A).
Proof. solve_decision. Defined.

Definition res_bind {A B} (m : res A) (f : A → res B) : res B :=
  match m with
  | Ok a => f a
  | KeyError k => KeyError k
  end.

(** A dict from strings to numbers, in insertion order. *)
Definition dict : Type := list (string * Qc).

(** [d[k]] as an expression. *)
Fixpoint dict_get (d : dict) (k : string) : res Qc :=
  match d with
  | [] => KeyError k
  | (k', v) :: d' => if decide (k' = k) then Ok v else dict_get d' k
  end.

(** [d[k] = v]: an existing key keeps its place, a new key goes last. *)
Fixpoint dict_set (d : dict) (k : string) (v : Qc) : dict :=
  match d with
  | [] => [(k, v)]
  | (k', v') :: d' =>
      if decide (k' = k) then (k', v) :: d' else (k', v') :: dict_set d' k v
  end.

Definition dict_keys (d : dict) : list string := fst <$> d.

(** ** The expense record and the tracker object *)

Record Expense : Type := mkExpense {
  amount : Qc;
  category : string;
  date : Z
}.

Record BudgetTracker : Type := mkBudgetTracker {
  income : Qc;
  expenses : list Expense;
  categories : list string
}.

Global Instance Expense_eq_dec : EqDecision Expense.
Proof. solve_decision. Defined.

Definition default_categories : list string :=
  ["Rent"; "Food"; "Entertainment"; "Transportation"; "Miscellaneous"]%string.

(** [__init__] *)
Definition init : BudgetTracker :=
  {| income := 0; expenses := []; categories := default_categories |}.

(** ** The methods *)

Definition add_income (self : BudgetTracker) (amount : Qc) : BudgetTracker :=
  {| income := income self + amount;
     expenses := expenses self;
     categories := categories self |}.

Definition add_expense (self : BudgetTracker) (amount : Qc) (category : string)
    (now : Z) : bool * BudgetTracker :=
  if bool_decide (category ∉ categories self) then (false, self)
  else (true,
        {| income := income self;
           expenses := expenses self ++ [mkExpense amount category now];
           categories := categories self |}).

Definition view_expenses (self : BudgetTracker) : list Expense :=
  expenses self.

Definition get_total_expenses (self : BudgetTracker) : Qc :=
  py_sum (amount <$> expenses self).

Definition get_remaining_budget (self : BudgetTracker) : Qc :=
  let total_expenses := get_total_expenses self in
  income self - total_expenses.

(** The loop [for expense in ...: spending_by_category[...] += ...]. *)
Fixpoint accumulate (spending_by_category : dict) (es : list Expense) : res dict :=
  match es with
  | [] => Ok spending_by_category
  | expense :: es' =>
      res_bind (dict_get spending_by_category (category expense)) (λ old,
        accumulate
          (dict_set spending_by_category (category expense) (old + amount expense))
          es')
  end.

Definition view_spending_by_category (self : BudgetTracker) : res dict :=
  let spending_by_category :=
    fold_left (λ d category, dict_set d category 0) (categories self) [] in
  accumulate spending_by_category (expenses self).

Record Insights : Type := mkInsights {
  total_income : Qc;
  total_expenses : Qc;
  remaining_budget : Qc;
  message : string;
  status : string
}.

Definition msg_warning : string :=
  "⚠️ Warning: You are overspending! Try to cut down on unnecessary expenses.".
Definition msg_caution : string :=
  "⚠️ Caution: You are nearing your budget limit. Consider saving more.".
Definition msg_success : string :=
  "🎉 Great job! You are managing your budget well.".

(** The ladder read over exact numbers: the value of the query in [call].
    What the code computes, with the binary64 product and its
    [OverflowError], is [Py.spending_insights]. *)
Definition spending_insights (self : BudgetTracker) : Insights :=
  let total_expenses := get_total_expenses self in
  let remaining_budget := get_remaining_budget self in
  if py_gt total_expenses (income self) then
    mkInsights (income self) total_expenses remaining_budget msg_warning "warning"
  else if py_gt total_expenses (income self * lit_0_8) then
    mkInsights (income self) total_expenses remaining_budget msg_caution "caution"
  else
    mkInsights (income self) total_expenses remaining_budget msg_success "success".

(** ** Sequences of calls *)

(** One call of a public method, with its arguments. *)
Inductive Op : Type :=
  | AddIncome (amount : Qc)
  | AddExpense (amount : Qc) (category : string) (now : Z)
  | ViewExpenses
  | GetTotalExpenses
  | GetRemainingBudget
  | ViewSpendingByCategory
  | SpendingInsights.

(** What a call returns. *)
Inductive Value : Type :=
  | VNone
  | VBool (b : bool)
  | VNum (x : Qc)
  | VExpenses (es : list Expense)
  | VDict (d : res dict)
  | VInsights (i : Insights).

(** A call gives its return value and the tracker after it. *)
Definition call (self : BudgetTracker) (op : Op) : Value * BudgetTracker :=
  match op with
  | AddIncome a => (VNone, add_income self a)
  | AddExpense a c now =>
      let '(ok, self') := add_expense self a c now in (VBool ok, self')
  | ViewExpenses => (VExpenses (view_expenses self), self)
  | GetTotalExpenses => (VNum (get_total_expenses self), self)
  | GetRemainingBudget => (VNum (get_remaining_budget self), self)
  | ViewSpendingByCategory => (VDict (view_spending_by_category self), self)
  | SpendingInsights => (VInsights (spending_insights self), self)
  end.

Definition step (self : BudgetTracker) (op : Op) : BudgetTracker :=
  snd (call self op).

Definition run (ops : list Op) (self : BudgetTracker) : BudgetTracker :=
  fold_left step ops self.


(** The expenses a sequence of calls records, in call order. *)
Definition recorded (cats : list string) (ops : list Op) : list Expense :=
  flat_map (λ op,
    match op with
    | AddExpense a c now =>
        if bool_decide (c ∈ cats) then [mkExpense a c now] else []
    | _ => []
    end) ops.


(** ** Lists as objects: the store model

    In Python [self.expenses] names a list object, [append] changes that
    object in place, and [return self.expenses] hands out the same object.
    Here a store maps references to the contents of list objects, and the
    tracker holds a reference. *)

Module Ref.

Definition loc : Type := positive.

(** The contents of the list object at [l]. *)
Definition deref (σ : gmap loc (list Expense)) (l : loc) : list Expense :=
  default [] (σ !! l).

(** [l.append(e)], by whoever holds the reference [l]. *)
Definition list_append (l : loc) (e : Expense)
    (σ : gmap loc (list Expense)) : gmap loc (list Expense) :=
  alter (λ es, es ++ [e]) l σ.

Record Tracker : Type := mkTracker {
  income : Qc;
  expenses : loc;
  categories : list string
}.

(** [__init__]: [self.expenses = []] makes a new list object. *)
Definition init (σ : gmap loc (list Expense))
    : Tracker * gmap loc (list Expense) :=
  let l := fresh (dom σ) in
  ({| income := 0; expenses := l; categories := default_categories |},
   <[l := []]> σ).

Definition add_income (self : Tracker) (amount : Qc) : Tracker :=
  {| income := income self + amount;
     expenses := expenses self;
     categories := categories self |}.

Definition add_expense (self : Tracker) (amount : Qc) (category : string)
    (now : Z) (σ : gmap loc (list Expense))
    : bool * gmap loc (list Expense) :=
  if bool_decide (category ∉ categories self) then (false, σ)
  else (true, list_append (expenses self) (mkExpense amount category now) σ).

(** [return self.expenses]: the reference itself. *)
Definition view_expenses (self : Tracker) : loc := expenses self.

Definition get_total_expenses (self : Tracker)
    (σ : gmap loc (list Expense)) : Qc :=
  py_sum (amount <$> deref σ (expenses self)).

Definition get_remaining_budget (self : Tracker)
    (σ : gmap loc (list Expense)) : Qc :=
  let total_expenses := get_total_expenses self σ in
  income self - total_expenses.

Definition view_spending_by_category (self : Tracker)
    (σ : gmap loc (list Expense)) : res dict :=
  let spending_by_category :=
    fold_left (λ d category, dict_set d category 0) (categories self) [] in
  accumulate spending_by_category (deref σ (expenses self)).

Definition spending_insights (self : Tracker)
    (σ : gmap loc (list Expense)) : Insights :=
  let total_expenses := get_total_expenses self σ in
  let remaining_budget := get_remaining_budget self σ in
  if py_gt total_expenses (income self) then
    mkInsights (income self) total_expenses remaining_budget msg_warning "warning"
  else if py_gt total_expenses (income self * lit_0_8) then
    mkInsights (income self) total_expenses remaining_budget msg_caution "caution"
  else
    mkInsights (income self) total_expenses remaining_budget msg_success "success".

Inductive Value : Type :=
  | VNone
  | VBool (b : bool)
  | VNum (x : Qc)
  | VRef (l : loc)
  | VDict (d : res dict)
  | VInsights (i : Insights).

Definition call (s : Tracker * gmap loc (list Expense)) (op : Op)
    : Value * (Tracker * gmap loc (list Expense)) :=
  let '(self, σ) := s in
  match op with
  | AddIncome a => (VNone, (add_income self a, σ))
  | AddExpense a c now =>
      let '(ok, σ') := add_expense self a c now σ in (VBool ok, (self, σ'))
  | ViewExpenses => (VRef (view_expenses self), s)
  | GetTotalExpenses => (VNum (get_total_expenses self σ), s)
  | GetRemainingBudget => (VNum (get_remaining_budget self σ), s)
  | ViewSpendingByCategory => (VDict (view_spending_by_category self σ), s)
  | SpendingInsights => (VInsights (spending_insights self σ), s)
  end.

Definition step (s : Tracker * gmap loc (list Expense)) (op : Op)
    : Tracker * gmap loc (list Expense) :=
  snd (call s op).

Definition run (ops : list Op) (s : Tracker * gmap loc (list Expense))
    : Tracker * gmap loc (list Expense) :=
  fold_left step ops s.

(** The tracker as the value model sees it. *)
Definition snapshot (s : Tracker * gmap loc (list Expense)) : BudgetTracker :=
  mkBudgetTracker (income s.1) (deref s.2 (expenses s.1)) (categories s.1).

End Ref.

(** ** Python numbers: the model with binary64 rounding and overflow

    The value model above reads every amount as an exact number.  That is
    what the code does on [int] amounts as long as no float is involved, and
    it is enough for the properties that use no law of arithmetic.  Python's
    numbers are not exact in general:
    - an [int] is an integer of any size;
    - a [float] is an IEEE 754 binary64 value ([spec_float], with
      [prec = 53] and [emax = 1024]): [+], [-] and [*] round to nearest,
      ties to even, and give [inf] or [nan] without raising;
    - when one operand is an [int] and the other a [float], the [int] is
      first converted, rounding to nearest, and [OverflowError] is raised
      when it is too large for a float;
    - comparisons are exact, also between an [int] and a [float], and are
      false on [nan];
    - the literal [0.8] is the binary64 value nearest to 8/10.
    [Module Py] is the class over these numbers.  [sum(...)] is the
    left-to-right sum from [0] with [+].  An exception leaves the tracker as
    it was: both [self.income += amount] and the queries compute before
    they assign. *)

Module Py.

Definition prec : Z := 53.
Definition emax : Z := 1024.

Inductive num : Type :=
  | Int (z : Z)
  | Float (f : spec_float).

Inductive exn : Type :=
  | OverflowError
  | KeyError (key : string).

Inductive outcome (A : Type) : Type :=
  | Ret (a : A)
  | Raise (e : exn).
Arguments Ret {A} a.
Arguments Raise {A} e.

Definition bind {A B} (m : outcome A) (f : A → outcome B) : outcome B :=
  match m with
  | Ret a => f a
  | Raise e => Raise e
  end.

(** [float(z)] for an [int] [z]. *)
Definition float_of_int (z : Z) : outcome spec_float :=
  match binary_normalize prec emax z 0 false with
  | S754_infinity _ => Raise OverflowError
  | f => Ret f
  end.

Definition as_float (x : num) : outcome spec_float :=
  match x with
  | Int z => float_of_int z
  | Float f => Ret f
  end.

(** A binary operator: exact on two [int]s, binary64 otherwise. *)
Definition arith (int_op : Z → Z → Z)
    (float_op : spec_float → spec_float → spec_float) (x y : num)
    : outcome num :=
  match x, y with
  | Int a, Int b => Ret (Int (int_op a b))
  | _, _ =>
      bind (as_float x) (λ fx,
      bind (as_float y) (λ fy, Ret (Float (float_op fx fy))))
  end.

(** [x + y], [x - y] and [x * y]. *)
Definition add : num → num → outcome num := arith Z.add (SFadd prec emax).
Definition sub : num → num → outcome num := arith Z.sub (SFsub prec emax).
Definition mul : num → num → outcome num := arith Z.mul (SFmul prec emax).

(** The exact order between a float and an int; [None] on [nan]. *)
Definition float_cmp_int (f : spec_float) (z : Z) : option comparison :=
  match f with
  | S754_nan => None
  | S754_infinity s => Some (if s then Lt else Gt)
  | S754_zero _ => Some (0 ?= z)%Z
  | S754_finite s m e =>
      let v := cond_Zopp s (Zpos m) in
      Some (match e with
            | Zneg p => (v ?= z * 2 ^ Zpos p)%Z
            | _ => (v * 2 ^ e ?= z)%Z
            end)
  end.

(** [x > y]. *)
Definition gt (x y : num) : bool :=
  match x, y with
  | Int a, Int b => (b <? a)%Z
  | Float a, Float b => SFltb b a
  | Float a, Int b =>
      match float_cmp_int a b with Some Gt => true | _ => false end
  | Int a, Float b =>
      match float_cmp_int b a with Some Lt => true | _ => false end
  end.

(** [x == y]: exact as well, false on [nan]. *)
Definition num_eq (x y : num) : bool :=
  match x, y with
  | Int a, Int b => (a =? b)%Z
  | Float a, Float b => SFeqb a b
  | Float a, Int b =>
      match float_cmp_int a b with Some Eq => true | _ => false end
  | Int a, Float b =>
      match float_cmp_int b a with Some Eq => true | _ => false end
  end.

(** The literal [0.8]: 7205759403792794 * 2^-53, in Python
    [(0.8).hex() = '0x1.999999999999ap-1']. *)
Definition lit_0_8 : num := Float (S754_finite false 7205759403792794 (-53)).

(** [sum(xs)]: from [0], one [+] per item, left to right. *)
Fixpoint sum_from (acc : num) (xs : list num) : outcome num :=
  match xs with
  | [] => Ret acc
  | x :: xs' => bind (add acc x) (λ acc', sum_from acc' xs')
  end.

Definition py_sum (xs : list num) : outcome num := sum_from (Int 0) xs.

Record Expense : Type := mkExpense {
  amount : num;
  category : string;
  date : Z
}.

Record BudgetTracker : Type := mkBudgetTracker {
  income : num;
  expenses : list Expense;
  categories : list string
}.

(** [__init__] *)
Definition init : BudgetTracker :=
  {| income := Int 0; expenses := []; categories := default_categories |}.

Definition add_income (self : BudgetTracker) (amount : num)
    : outcome BudgetTracker :=
  bind (add (income self) amount) (λ income',
  Ret {| income := income';
         expenses := expenses self;
         categories := categories self |}).

Definition add_expense (self : BudgetTracker) (amount : num)
    (category : string) (now : Z) : bool * BudgetTracker :=
  if bool_decide (category ∉ categories self) then (false, self)
  else (true,
        {| income := income self;
           expenses := expenses self ++ [mkExpense amount category now];
           categories := categories self |}).

Definition view_expenses (self : BudgetTracker) : list Expense :=
  expenses self.

Definition get_total_expenses (self : BudgetTracker) : outcome num :=
  py_sum (amount <$> expenses self).

Definition get_remaining_budget (self : BudgetTracker) : outcome num :=
  bind (get_total_expenses self) (λ total_expenses,
  sub (income self) total_expenses).

(** [d[k]] and [d[k] = v] on a dict in insertion order. *)
Fixpoint dict_get (d : list (string * num)) (k : string) : outcome num :=
  match d with
  | [] => Raise (KeyError k)
  | (k', v) :: d' => if decide (k' = k) then Ret v else dict_get d' k
  end.

Fixpoint dict_set (d : list (string * num)) (k : string) (v : num)
    : list (string * num) :=
  match d with
  | [] => [(k, v)]
  | (k', v') :: d' =>
      if decide (k' = k) then (k', v) :: d' else (k', v') :: dict_set d' k v
  end.

Fixpoint accumulate (spending_by_category : list (string * num))
    (es : list Expense) : outcome (list (string * num)) :=
  match es with
  | [] => Ret spending_by_category
  | expense :: es' =>
      bind (dict_get spending_by_category (category expense)) (λ old,
      bind (add old (amount expense)) (λ new,
      accumulate (dict_set spending_by_category (category expense) new) es'))
  end.

Definition view_spending_by_category (self : BudgetTracker)
    : outcome (list (string * num)) :=
  let spending_by_category :=
    fold_left (λ d category, dict_set d category (Int 0)) (categories self) [] in
  accumulate spending_by_category (expenses self).

Record Insights : Type := mkInsights {
  total_income : num;
  total_expenses : num;
  remaining_budget : num;
  message : string;
  status : string
}.

Definition spending_insights (self : BudgetTracker) : outcome Insights :=
  bind (get_total_expenses self) (λ total_expenses,
  bind (get_remaining_budget self) (λ remaining_budget,
  if gt total_expenses (income self) then
    Ret (mkInsights (income self) total_expenses remaining_budget
           msg_warning "warning")
  else
    bind (mul (income self) lit_0_8) (λ limit,
    if gt total_expenses limit then
      Ret (mkInsights (income self) total_expenses remaining_budget
             msg_caution "caution")
    else
      Ret (mkInsights (income self) total_expenses remaining_budget
             msg_success "success")))).

(** The status of the record a call returned. *)
Definition status_of (r : outcome Insights) : outcome string :=
  bind r (λ insights, Ret (status insights)).

(** The alert the page shows for an insights record: [st.error],
    [st.warning] or [st.success], with the text it is given. *)
Inductive Alert : Type :=
  | StError (text : string)
  | StWarning (text : string)
  | StSuccess (text : string).

(** The branches under "Display styled message based on status". *)
Definition insights_alert (insights : Insights) : Alert :=
  if decide (status insights = "warning"%string) then
    StError (message insights)
  else if decide (status insights = "caution"%string) then
    StWarning (message insights)
  else StSuccess (message insights).

(** One call of a public method, with its arguments. *)
Inductive Op : Type :=
  | AddIncome (amount : num)
  | AddExpense (amount : num) (category : string) (now : Z)
  | ViewExpenses
  | GetTotalExpenses
  | GetRemainingBudget
  | ViewSpendingByCategory
  | SpendingInsights.

Inductive Value : Type :=
  | VNone
  | VBool (b : bool)
  | VNum (x : num)
  | VExpenses (es : list Expense)
  | VDict (d : list (string * num))
  | VInsights (i : Insights).

(** A call gives what it returns, or the exception it raises, and the
    tracker after it. *)
Definition call (self : BudgetTracker) (op : Op)
    : outcome Value * BudgetTracker :=
  match op with
  | AddIncome a =>
      match add_income self a with
      | Ret self' => (Ret VNone, self')
      | Raise e => (Raise e, self)
      end
  | AddExpense a c now =>
      let '(ok, self') := add_expense self a c now in (Ret (VBool ok), self')
  | ViewExpenses => (Ret (VExpenses (view_expenses self)), self)
  | GetTotalExpenses => (bind (get_total_expenses self) (λ x, Ret (VNum x)), self)
  | GetRemainingBudget =>
      (bind (get_remaining_budget self) (λ x, Ret (VNum x)), self)
  | ViewSpendingByCategory =>
      (bind (view_spending_by_category self) (λ d, Ret (VDict d)), self)
  | SpendingInsights =>
      (bind (spending_insights self) (λ i, Ret (VInsights i)), self)
  end.

Definition step (self : BudgetTracker) (op : Op) : BudgetTracker :=
  snd (call self op).

Definition run (ops : list Op) (self : BudgetTracker) : BudgetTracker :=
  fold_left step ops self.

Definition is_int (x : num) : Prop :=
  match x with Int _ => True | Float _ => False end.

Definition is_float (x : num) : Prop :=
  match x with Int _ => False | Float _ => True end.

(** A call that hands the tracker only floats, as the page's number
    inputs do. *)
Definition float_call (op : Op) : Prop :=
  match op with
  | AddIncome a => is_float a
  | AddExpense a _ _ => is_float a
  | _ => True
  end.


Definition f_1 : num := Float (S754_finite false 4503599627370496 (-52)).
Definition f_1e16 : num := Float (S754_finite false 5000000000000000 1).
Definition f_0_1 : num := Float (S754_finite false 7205759403792794 (-56)).
Definition f_0_2 : num := Float (S754_finite false 7205759403792794 (-55)).
Definition f_0_3 : num := Float (S754_finite false 5404319552844595 (-54)).

End Py.

(** ** Definitions used by the statements *)




(** A session with three expenses in two categories. *)
Definition sample_session : BudgetTracker :=
  run [AddIncome (Qc_of_Z 1000);
       AddExpense (Qc_of_Z 300) "Food" 1;
       AddExpense (Qc_of_Z 450) "Rent" 2;
       AddExpense (Qc_of_Z 25) "Food" 3;
       AddExpense (Qc_of_Z 9) "Gifts" 4] init.

(** The tracker's list object exists. *)
Definition allocated (s : Ref.Tracker * gmap Ref.loc (list Expense)) : Prop :=
  is_Some (s.2 !! Ref.expenses s.1).

(** A caller who appends to the list it got from [view_expenses]. *)
Definition bogus : Expense := mkExpense (Qc_of_Z 999) "Not-a-category" 0.


(** The states of a session that hands the tracker only floats: the income
    is still the [0] of [__init__] or a float, every amount is a float. *)
Definition float_state (t : Py.BudgetTracker) : Prop :=
  (Py.income t = Py.Int 0 ∨ Py.is_float (Py.income t)) ∧
  Forall (λ e, Py.is_float (Py.amount e)) (Py.expenses t).

(** Income 100000000000000005 and one expense of 80000000000000004, both
    [int]: exactly 80% spent. *)
Definition big_80_percent : Py.BudgetTracker :=
  Py.run [Py.AddIncome (Py.Int 100000000000000005);
          Py.AddExpense (Py.Int 80000000000000004) "Rent" 0] Py.init.

(** Income 10**400, no expense. *)
Definition huge_income : Py.BudgetTracker :=
  Py.run [Py.AddIncome (Py.Int (10 ^ 400))] Py.init.

(** Income 1000 with one expense of 800, and with one expense of 1000. *)
Definition at_80_percent : Py.BudgetTracker :=
  Py.run [Py.AddIncome (Py.Int 1000);
          Py.AddExpense (Py.Int 800) "Food" 0] Py.init.

Definition at_100_percent : Py.BudgetTracker :=
  Py.run [Py.AddIncome (Py.Int 1000);
          Py.AddExpense (Py.Int 1000) "Rent" 0] Py.init.

(** One expense of 1e16, a float. *)
Definition one_float_expense : Py.BudgetTracker :=
  Py.run [Py.AddExpense Py.f_1e16 "Rent" 0] Py.init.

(** * Properties *)

(** ** Numbers and sums *)



Lemma py_sum_snoc (xs : list Qc) (a : Qc) : py_sum (xs ++ [a]) = py_sum xs + a.
Proof. unfold py_sum. rewrite fold_left_app. reflexivity. Qed.

(** ** Adding an expense *)

(** C4: with a category outside [categories], [add_expense] returns [False]
    and the tracker is the one before the call: same expenses, same income,
    same categories. *)
Theorem add_expense_invalid (t : BudgetTracker) (amt : Qc) (cat : string)
    (now : Z) :
  cat ∉ categories t →
  add_expense t amt cat now = (false, t) ∧
  view_expenses (add_expense t amt cat now).2 = view_expenses t ∧
  length (expenses (add_expense t amt cat now).2) = length (expenses t) ∧
  income (add_expense t amt cat now).2 = income t.
Proof.
  intros Hn. unfold add_expense.
  rewrite bool_decide_eq_true_2 by exact Hn.
  repeat split.
Qed.

Lemma add_expense_invalid_witness :
  add_expense init (Qc_of_Z 100) "Misc-invalid-category" 3 = (false, init) ∧
  view_expenses (add_expense init (Qc_of_Z 100) "Misc-invalid-category" 3).2
    = view_expenses init ∧
  length (expenses (add_expense init (Qc_of_Z 100) "Misc-invalid-category" 3).2)
    = length (expenses init) ∧
  income (add_expense init (Qc_of_Z 100) "Misc-invalid-category" 3).2
    = income init.
Proof.
  apply (add_expense_invalid init (Qc_of_Z 100) "Misc-invalid-category" 3).
  apply (bool_decide_eq_false_1 ("Misc-invalid-category"%string ∈ default_categories)).
  reflexivity.
Defined.

(** ** Runs of calls *)

Lemma run_app (ops1 ops2 : list Op) (t : BudgetTracker) :
  run (ops1 ++ ops2) t = run ops2 (run ops1 t).
Proof. unfold run. apply fold_left_app. Qed.

Lemma step_categories (t : BudgetTracker) (op : Op) :
  categories (step t op) = categories t.
Proof.
  destruct op as [a|a c now| | | | |]; try reflexivity.
  unfold step, call, add_expense. by case_bool_decide.
Qed.

Lemma step_expenses (t : BudgetTracker) (op : Op) :
  expenses (step t op) = expenses t ++ recorded (categories t) [op].
Proof.
  destruct op as [a|a c now| | | | |]; simpl; try (by rewrite app_nil_r).
  unfold step, call, add_expense.
  case_bool_decide as Hc.
  - rewrite bool_decide_eq_false_2 by exact Hc. by rewrite app_nil_r.
  - rewrite bool_decide_eq_true_2 by exact Hc.
    reflexivity.
Qed.

Lemma run_categories (ops : list Op) (t : BudgetTracker) :
  categories (run ops t) = categories t.
Proof.
  revert t. induction ops as [|op ops IH]; intros t; [reflexivity|].
  simpl. rewrite IH. apply step_categories.
Qed.

Lemma recorded_app (cats : list string) (ops1 ops2 : list Op) :
  recorded cats (ops1 ++ ops2) = recorded cats ops1 ++ recorded cats ops2.
Proof. unfold recorded. apply flat_map_app. Qed.

Lemma run_expenses (ops : list Op) (t : BudgetTracker) :
  expenses (run ops t) = expenses t ++ recorded (categories t) ops.
Proof.
  revert t. induction ops as [|op ops IH]; intros t.
  - simpl. by rewrite app_nil_r.
  - change (op :: ops) with ([op] ++ ops).
    rewrite run_app, IH, recorded_app, app_assoc.
    change (run [op] t) with (step t op).
    by rewrite step_expenses, step_categories.
Qed.



(** ** The remaining budget *)


(** ** The per-category dict *)





Lemma dict_get_KeyError (d : dict) (k k' : string) :
  dict_get d k = KeyError k' → k' = k ∧ k ∉ dict_keys d.
Proof.
  induction d as [|[k1 v1] d IH]; simpl.
  - intros [= ->]. split; [done|]. apply not_elem_of_nil.
  - destruct (decide (k1 = k)) as [->|Hne]; [done|].
    intros H. destruct (IH H) as [-> Hk]. split; [done|].
    apply not_elem_of_cons. split; [congruence|done].
Qed.







(** The dict of [sample_session], entry by entry. *)
Example view_spending_by_category_sample :
  view_spending_by_category sample_session
    = Ok [("Rent"%string, Qc_of_Z 450); ("Food"%string, Qc_of_Z 325);
          ("Entertainment"%string, 0); ("Transportation"%string, 0);
          ("Miscellaneous"%string, 0)].
Proof.
  apply (bool_decide_eq_true_1 (_ = _)). reflexivity.
Qed.

(** ** Recorded categories are always valid *)

(** Outside the reachable states the loop does raise: an expense whose
    category is no key of the dict stops it with [KeyError]. *)
Example view_spending_by_category_KeyError :
  view_spending_by_category
    (mkBudgetTracker 0 [mkExpense 1 "Gifts" 0] default_categories)
    = KeyError "Gifts".
Proof. reflexivity. Qed.



(** ** What [view_expenses] hands out *)

Lemma deref_list_append (σ : gmap Ref.loc (list Expense)) (l : Ref.loc)
    (e : Expense) :
  is_Some (σ !! l) →
  Ref.deref (Ref.list_append l e σ) l = Ref.deref σ l ++ [e].
Proof.
  intros [es Hes]. unfold Ref.deref, Ref.list_append.
  rewrite lookup_alter_eq, Hes. reflexivity.
Qed.

Lemma init_allocated (σ : gmap Ref.loc (list Expense)) :
  allocated (Ref.init σ).
Proof. unfold allocated. simpl. rewrite lookup_insert_eq. by eexists. Qed.

Lemma snapshot_init (σ : gmap Ref.loc (list Expense)) :
  Ref.snapshot (Ref.init σ) = init.
Proof.
  unfold Ref.snapshot, Ref.deref. simpl. by rewrite lookup_insert_eq.
Qed.

(** The store model and the value model take the same steps. *)
Lemma step_simulation (s : Ref.Tracker * gmap Ref.loc (list Expense)) (op : Op) :
  allocated s →
  Ref.snapshot (Ref.step s op) = step (Ref.snapshot s) op ∧
  allocated (Ref.step s op) ∧
  Ref.expenses (Ref.step s op).1 = Ref.expenses s.1.
Proof.
  destruct s as [self σ]. intros Ha.
  destruct op as [a|a c now| | | | |]; try done.
  unfold allocated in Ha. simpl in Ha.
  unfold Ref.step, step, Ref.call, call, Ref.add_expense, add_expense.
  simpl. case_bool_decide as Hc; [done|].
  simpl. split; [|split; [|done]].
  - unfold Ref.snapshot. simpl. f_equal. by apply deref_list_append.
  - unfold allocated, Ref.list_append. simpl.
    rewrite lookup_alter_eq. destruct Ha as [es ->]. by eexists.
Qed.

Lemma run_simulation (ops : list Op)
    (s : Ref.Tracker * gmap Ref.loc (list Expense)) :
  allocated s →
  Ref.snapshot (Ref.run ops s) = run ops (Ref.snapshot s) ∧
  allocated (Ref.run ops s) ∧
  Ref.expenses (Ref.run ops s).1 = Ref.expenses s.1.
Proof.
  revert s. induction ops as [|op ops IH]; intros s Ha; [done|].
  destruct (step_simulation s op Ha) as (Hsnap & Ha' & Hl).
  destruct (IH (Ref.step s op) Ha') as (IH1 & IH2 & IH3).
  simpl. rewrite IH1, Hsnap, IH3, Hl. done.
Qed.

(** C9, as stated, fails: [view_expenses] returns the tracker's own list
    object.  On a fresh tracker, a caller that appends to the returned list
    has changed the tracker's expenses, and what [get_total_expenses]
    reports, without calling any method that records an expense. *)
Lemma view_expenses_not_a_copy :
  Ref.view_expenses (Ref.init ∅).1 = Ref.expenses (Ref.init ∅).1 ∧
  Ref.deref (Ref.init ∅).2 (Ref.expenses (Ref.init ∅).1) = [] ∧
  Ref.deref
    (Ref.list_append (Ref.view_expenses (Ref.init ∅).1) bogus (Ref.init ∅).2)
    (Ref.expenses (Ref.init ∅).1) = [bogus] ∧
  Ref.get_total_expenses (Ref.init ∅).1
    (Ref.list_append (Ref.view_expenses (Ref.init ∅).1) bogus (Ref.init ∅).2)
    ≠ Ref.get_total_expenses (Ref.init ∅).1 (Ref.init ∅).2.
Proof.
  pose proof (init_allocated ∅) as Ha.
  pose proof (snapshot_init ∅) as Hs.
  assert (H0 : Ref.deref (Ref.init ∅).2 (Ref.expenses (Ref.init ∅).1) = []).
  { change (expenses (Ref.snapshot (Ref.init ∅)) = []). by rewrite Hs. }
  assert (H1 : Ref.deref
    (Ref.list_append (Ref.view_expenses (Ref.init ∅).1) bogus (Ref.init ∅).2)
    (Ref.expenses (Ref.init ∅).1) = [bogus]).
  { unfold Ref.view_expenses. rewrite deref_list_append by exact Ha.
    by rewrite H0. }
  split; [reflexivity|]. split; [exact H0|]. split; [exact H1|].
  unfold Ref.get_total_expenses. unfold Ref.view_expenses in H1.
  unfold Ref.view_expenses. rewrite H1, H0. discriminate.
Qed.

(** C9, amended: [view_expenses] returns the whole expense history in
    insertion order, and the call changes nothing; what it returns is the
    tracker's own list (an alias, not a copy), so an append made through the
    returned value is an append to the tracker's expenses. *)
Theorem view_expenses_alias (σ0 : gmap Ref.loc (list Expense))
    (ops : list Op) (e : Expense) :
  Ref.call (Ref.run ops (Ref.init σ0)) ViewExpenses
    = (Ref.VRef (Ref.expenses (Ref.run ops (Ref.init σ0)).1),
       Ref.run ops (Ref.init σ0)) ∧
  Ref.deref (Ref.run ops (Ref.init σ0)).2
      (Ref.view_expenses (Ref.run ops (Ref.init σ0)).1)
    = recorded default_categories ops ∧
  view_expenses (run ops init) = recorded default_categories ops ∧
  Ref.deref
      (Ref.list_append (Ref.view_expenses (Ref.run ops (Ref.init σ0)).1) e
         (Ref.run ops (Ref.init σ0)).2)
      (Ref.expenses (Ref.run ops (Ref.init σ0)).1)
    = recorded default_categories ops ++ [e].
Proof.
  destruct (run_simulation ops (Ref.init σ0) (init_allocated σ0))
    as (Hsnap & Ha & Hl).
  rewrite snapshot_init in Hsnap.
  assert (Hval : view_expenses (run ops init) = recorded default_categories ops).
  { unfold view_expenses. by rewrite run_expenses. }
  assert (Hd : Ref.deref (Ref.run ops (Ref.init σ0)).2
                 (Ref.expenses (Ref.run ops (Ref.init σ0)).1)
               = recorded default_categories ops).
  { rewrite <- Hval, <- Hsnap. reflexivity. }
  split; [by destruct (Ref.run ops (Ref.init σ0))|].
  split; [exact Hd|]. split; [exact Hval|].
  unfold Ref.view_expenses. rewrite deref_list_append by exact Ha.
  by rewrite Hd.
Qed.

(** * Further properties of the class *)

(** X2: the expense list only grows at its end: whatever is called, the list
    before is a prefix of the list after, an entry keeps its index, and the
    categories stay what they were. *)
Theorem expenses_append_only (ops : list Op) (t : BudgetTracker) :
  expenses t `prefix_of` expenses (run ops t) ∧
  (∀ i e, expenses t !! i = Some e → expenses (run ops t) !! i = Some e) ∧
  categories (run ops t) = categories t.
Proof.
  rewrite run_expenses. split; [|split].
  - by eexists.
  - intros i e Hi. by apply lookup_app_l_Some.
  - apply run_categories.
Qed.

(** ** How the methods compose *)

(** X4: an income and an expense can be entered in either order: the answer of
    [add_expense] and the tracker at the end are the same. *)
Theorem add_income_add_expense_commute (t : BudgetTracker) (a e : Qc)
    (c : string) (now : Z) :
  add_expense (add_income t a) e c now
    = ((add_expense t e c now).1, add_income (add_expense t e c now).2 a).
Proof.
  unfold add_expense, add_income. simpl.
  by case_bool_decide.
Qed.

(** ** The per-category sums and the total *)






(** ** A category that is no key *)






(** ** Two trackers *)

(** X11: each [__init__] makes its own list: two trackers made one after the
    other hold different list objects, and an expense added to either is
    not seen by the other. *)
Theorem trackers_do_not_share_expenses (σ : gmap Ref.loc (list Expense))
    (a : Qc) (c : string) (now : Z) :
  Ref.expenses (Ref.init σ).1 ≠ Ref.expenses (Ref.init (Ref.init σ).2).1 ∧
  Ref.deref
      (Ref.add_expense (Ref.init (Ref.init σ).2).1 a c now
         (Ref.init (Ref.init σ).2).2).2
      (Ref.view_expenses (Ref.init σ).1) = [] ∧
  Ref.deref
      (Ref.add_expense (Ref.init σ).1 a c now (Ref.init (Ref.init σ).2).2).2
      (Ref.view_expenses (Ref.init (Ref.init σ).2).1) = [].
Proof.
  unfold Ref.init, Ref.view_expenses. cbn [fst snd Ref.expenses].
  set (l1 := fresh (dom σ)).
  set (l2 := fresh (dom (<[l1:=[]]> σ))).
  assert (Hne : l1 ≠ l2).
  { intros Heq. apply (is_fresh (dom (<[l1:=[]]> σ))).
    fold l2. rewrite <- Heq. apply elem_of_dom.
    rewrite lookup_insert_eq. by eexists. }
  split; [exact Hne|].
  unfold Ref.add_expense, Ref.deref, Ref.list_append.
  cbn [Ref.categories Ref.expenses].
  split; case_bool_decide; cbn [snd].
  - by rewrite lookup_insert_ne, lookup_insert_eq.
  - by rewrite lookup_alter_ne, lookup_insert_ne, lookup_insert_eq.
  - by rewrite lookup_insert_eq.
  - by rewrite lookup_alter_ne, lookup_insert_eq.
Qed.

(** * Properties over Python's numbers *)

(** ** Comparisons and the literal *)

Lemma SFltb_irrefl (f : spec_float) : SFltb f f = false.
Proof.
  destruct f as [[]|[]| |[] m e]; try reflexivity;
    unfold SFltb, SFcompare;
    rewrite Z.compare_refl, Pos.compare_cont_refl; reflexivity.
Qed.

Lemma gt_irrefl (x : Py.num) : Py.gt x x = false.
Proof.
  destruct x as [z|f]; simpl.
  - apply Z.ltb_irrefl.
  - apply SFltb_irrefl.
Qed.

Lemma SFcompare_Eq_sym (a b : spec_float) :
  SFcompare a b = Some Eq → SFcompare b a = Some Eq.
Proof.
  destruct a as [[]|[]| |[] ma ea], b as [[]|[]| |[] mb eb];
    simpl; try done.
  - destruct (ea ?= eb)%Z eqn:He; try done.
    destruct (Pos.compare_cont Eq ma mb) eqn:Hm; try done.
    apply Z.compare_eq in He. apply Pos.compare_eq in Hm. subst.
    by rewrite Z.compare_refl, Pos.compare_cont_refl.
  - destruct (ea ?= eb)%Z eqn:He; try done.
    destruct (Pos.compare_cont Eq ma mb) eqn:Hm; try done.
    apply Z.compare_eq in He. apply Pos.compare_eq in Hm. subst.
    by rewrite Z.compare_refl, Pos.compare_cont_refl.
Qed.

(** What is equal is not greater. *)
Lemma num_eq_not_gt (x y : Py.num) :
  Py.num_eq x y = true → Py.gt x y = false.
Proof.
  destruct x as [a|fa], y as [b|fb]; simpl.
  - intros H. apply Z.eqb_eq in H as ->. apply Z.ltb_irrefl.
  - by destruct (Py.float_cmp_int fb a) as [[]|].
  - by destruct (Py.float_cmp_int fa b) as [[]|].
  - unfold SFeqb, SFltb.
    destruct (SFcompare fa fb) as [[]|] eqn:H; try done.
    by rewrite (SFcompare_Eq_sym _ _ H).
Qed.

(** [Py.lit_0_8] is the binary64 value nearest to 8/10: it is what the
    correctly rounded division of 8 by 10 gives, and 8/10 lies strictly
    between the midpoints to its two neighbours. *)
Lemma lit_0_8_nearest :
  Py.bind (Py.float_of_int 8) (λ a,
    Py.bind (Py.float_of_int 10) (λ b,
      Py.Ret (Py.Float (SFdiv Py.prec Py.emax a b)))) = Py.Ret Py.lit_0_8 ∧
  Py.lit_0_8 = Py.Float (S754_finite false 7205759403792794 (-53)) ∧
  (10 * (2 * 7205759403792794 - 1) < 8 * 2 ^ 54)%Z ∧
  (8 * 2 ^ 54 < 10 * (2 * 7205759403792794 + 1))%Z.
Proof. repeat split. Qed.

Lemma float_of_int_0 : Py.float_of_int 0 = Py.Ret (S754_zero false).
Proof. reflexivity. Qed.

(** A product with the literal is a float, and its left operand converts. *)
Lemma mul_lit_Ret (x p : Py.num) :
  Py.mul x Py.lit_0_8 = Py.Ret p →
  ∃ fx fp, Py.as_float x = Py.Ret fx ∧ p = Py.Float fp.
Proof.
  unfold Py.mul, Py.arith, Py.lit_0_8.
  destruct x as [z|f]; simpl.
  - destruct (Py.float_of_int z) as [fz|e]; simpl; [|discriminate].
    intros [= <-]. by eexists _, _.
  - intros [= <-]. by eexists _, _.
Qed.

(** ** The insight ladder *)

Lemma spending_insights_Ret (t : Py.BudgetTracker) (i : Py.Insights) :
  Py.spending_insights t = Py.Ret i →
  ∃ total rem,
    Py.get_total_expenses t = Py.Ret total ∧
    Py.get_remaining_budget t = Py.Ret rem ∧
    ((Py.gt total (Py.income t) = true ∧
      i = Py.mkInsights (Py.income t) total rem msg_warning "warning") ∨
     (Py.gt total (Py.income t) = false ∧
      ∃ limit, Py.mul (Py.income t) Py.lit_0_8 = Py.Ret limit ∧
        ((Py.gt total limit = true ∧
          i = Py.mkInsights (Py.income t) total rem msg_caution "caution") ∨
         (Py.gt total limit = false ∧
          i = Py.mkInsights (Py.income t) total rem msg_success "success")))).
Proof.
  unfold Py.spending_insights.
  destruct (Py.get_total_expenses t) as [total|e]; [|discriminate].
  destruct (Py.get_remaining_budget t) as [rem|e]; [|discriminate].
  cbn [Py.bind]. intros H. exists total, rem.
  split; [reflexivity|]. split; [reflexivity|].
  destruct (Py.gt total (Py.income t)).
  - left. split; [reflexivity|]. by injection H as <-.
  - right. split; [reflexivity|].
    destruct (Py.mul (Py.income t) Py.lit_0_8) as [limit|e]; [|discriminate].
    cbn [Py.bind] in H. exists limit. split; [reflexivity|].
    destruct (Py.gt total limit); [left|right];
      (split; [reflexivity|]; by injection H as <-).
Qed.

Lemma add_small_float (x y : Py.num) :
  x = Py.Int 0 ∨ Py.is_float x → Py.is_float y →
  ∃ f, Py.add x y = Py.Ret (Py.Float f).
Proof.
  intros [->|Hx] Hy; destruct y as [|fy]; try done.
  - by eexists.
  - destruct x as [|fx]; [done|]. by eexists.
Qed.

Lemma arith_small (io : Z → Z → Z)
    (fo : spec_float → spec_float → spec_float) (x y : Py.num) :
  x = Py.Int 0 ∨ Py.is_float x → y = Py.Int 0 ∨ Py.is_float y →
  ∃ r, Py.arith io fo x y = Py.Ret r.
Proof.
  intros [->|Hx] [->|Hy];
    try (destruct x as [|fx]; [done|]);
    try (destruct y as [|fy]; [done|]);
    by eexists.
Qed.

Lemma sum_from_float (xs : list Py.num) (acc : Py.num) :
  Py.is_float acc → Forall Py.is_float xs →
  ∃ f, Py.sum_from acc xs = Py.Ret (Py.Float f).
Proof.
  revert acc. induction xs as [|x xs IH]; intros acc Hacc Hxs.
  - destruct acc as [|f]; [done|]. by eexists.
  - apply Forall_cons in Hxs as [Hx Hxs].
    destruct (add_small_float acc x (or_intror Hacc) Hx) as [f Hf].
    cbn [Py.sum_from]. rewrite Hf. cbn [Py.bind]. by apply IH.
Qed.

Lemma py_sum_float (xs : list Py.num) :
  Forall Py.is_float xs →
  ∃ r, Py.py_sum xs = Py.Ret r ∧ (r = Py.Int 0 ∨ Py.is_float r).
Proof.
  intros Hxs. unfold Py.py_sum. destruct xs as [|x xs].
  - eexists. split; [reflexivity|]. by left.
  - apply Forall_cons in Hxs as [Hx Hxs].
    destruct (add_small_float (Py.Int 0) x (or_introl eq_refl) Hx) as [f Hf].
    cbn [Py.sum_from]. rewrite Hf. cbn [Py.bind].
    destruct (sum_from_float xs (Py.Float f) I Hxs) as [f' Hf'].
    rewrite Hf'. eexists. split; [reflexivity|]. by right.
Qed.

Lemma float_state_step (t : Py.BudgetTracker) (op : Py.Op) :
  float_state t → Py.float_call op → float_state (Py.step t op).
Proof.
  intros [Hinc Hall] Hop.
  destruct op as [a|a c now| | | | |]; try done.
  - unfold Py.step, Py.call, Py.add_income.
    destruct (add_small_float (Py.income t) a Hinc Hop) as [f ->].
    simpl. split; [by right | done].
  - unfold Py.step, Py.call, Py.add_expense.
    case_bool_decide; [done|]. simpl. split; [done|].
    apply Forall_app. split; [done|]. by constructor.
Qed.

Lemma float_state_run (ops : list Py.Op) (t : Py.BudgetTracker) :
  float_state t → Forall Py.float_call ops → float_state (Py.run ops t).
Proof.
  revert t. induction ops as [|op ops IH]; intros t Ht Hops; [done|].
  apply Forall_cons in Hops as [Hop Hops].
  simpl. apply IH; [by apply float_state_step | done].
Qed.

Lemma float_state_insights (t : Py.BudgetTracker) :
  float_state t → ∃ i, Py.spending_insights t = Py.Ret i.
Proof.
  intros [Hinc Hall].
  assert (Hamounts : Forall Py.is_float (Py.amount <$> Py.expenses t))
    by (by apply Forall_fmap).
  destruct (py_sum_float _ Hamounts) as (total & Htot & Hsmall).
  unfold Py.spending_insights, Py.get_remaining_budget, Py.get_total_expenses.
  rewrite Htot. cbn [Py.bind].
  destruct (arith_small Z.sub (SFsub Py.prec Py.emax) _ _ Hinc Hsmall)
    as [rem Hrem].
  unfold Py.sub. rewrite Hrem. cbn [Py.bind].
  destruct (Py.gt total (Py.income t)); [by eexists|].
  destruct (arith_small Z.mul (SFmul Py.prec Py.emax) (Py.income t)
              Py.lit_0_8 Hinc (or_intror I)) as [limit Hlimit].
  unfold Py.mul. rewrite Hlimit. cbn [Py.bind].
  destruct (Py.gt total limit); by eexists.
Qed.

(** C1, as stated, fails in two ways.  With income 100000000000000005 and
    expenses 80000000000000004 the expenses are exactly 0.8 times the income,
    not more, and the status is "caution": the code compares with the
    rounded product 80000000000000000.  With income 10**400 and no expense
    the product cannot be computed and there is no status: the call raises
    [OverflowError]. *)
Lemma spending_insights_not_exact :
  Py.income big_80_percent = Py.Int 100000000000000005 ∧
  Py.get_total_expenses big_80_percent = Py.Ret (Py.Int 80000000000000004) ∧
  (10 * 80000000000000004 = 8 * 100000000000000005)%Z ∧
  Py.gt (Py.Int 80000000000000004) (Py.income big_80_percent) = false ∧
  Py.status_of (Py.spending_insights big_80_percent) = Py.Ret "caution"%string ∧
  Py.income huge_income = Py.Int (10 ^ 400) ∧
  Py.status_of (Py.spending_insights huge_income) = Py.Raise Py.OverflowError.
Proof. repeat split; vm_compute; reflexivity. Qed.

(** C1, amended: whenever [spending_insights] returns, the status is
    "warning" exactly when the total of the expenses is greater than the
    income; otherwise "caution" exactly when it is greater than the product
    [income * 0.8] as Python computes it (rounded to binary64, so not
    always the exact 80%); otherwise "success".  A tracker with income 0
    and no expense gets "success".  The call returns on every session that
    hands the tracker only floats; it raises [OverflowError] when the
    product is needed and the income is an [int] too large for a float. *)
Theorem spending_insights_ladder :
  (∀ (t : Py.BudgetTracker) (i : Py.Insights),
     Py.spending_insights t = Py.Ret i →
     ∃ total,
       Py.get_total_expenses t = Py.Ret total ∧
       (Py.status i = "warning"%string ↔ Py.gt total (Py.income t) = true) ∧
       (Py.status i = "caution"%string ↔
          Py.gt total (Py.income t) = false ∧
          ∃ limit, Py.mul (Py.income t) Py.lit_0_8 = Py.Ret limit ∧
                   Py.gt total limit = true) ∧
       (Py.status i = "success"%string ↔
          Py.gt total (Py.income t) = false ∧
          ∃ limit, Py.mul (Py.income t) Py.lit_0_8 = Py.Ret limit ∧
                   Py.gt total limit = false)) ∧
  (∀ cats : list string,
     Py.status_of
       (Py.spending_insights (Py.mkBudgetTracker (Py.Int 0) [] cats))
     = Py.Ret "success"%string) ∧
  (∀ ops : list Py.Op,
     Forall Py.float_call ops →
     ∃ i, Py.spending_insights (Py.run ops Py.init) = Py.Ret i) ∧
  (∀ (t : Py.BudgetTracker) (total : Py.num) (z : Z),
     Py.get_total_expenses t = Py.Ret total →
     Py.income t = Py.Int z →
     Py.gt total (Py.income t) = false →
     Py.float_of_int z = Py.Raise Py.OverflowError →
     Py.spending_insights t = Py.Raise Py.OverflowError).
Proof.
  split; [|split; [|split]].
  - intros t i Hi.
    destruct (spending_insights_Ret t i Hi)
      as (total & rem & Htot & _ & Hcases).
    exists total. split; [exact Htot|].
    destruct Hcases as [[Hgt ->]|(Hgt & limit & Hmul & [[Hl ->]|[Hl ->]])];
      cbn [Py.status]; rewrite Hgt; (split; [|split]); split;
      try done; try (intros [? _]; done);
      try (intros _; split; [done|]; by exists limit);
      intros (_ & limit' & Hmul' & Hl'); congruence.
  - intros cats. reflexivity.
  - intros ops Hops. apply float_state_insights.
    apply float_state_run; [|exact Hops].
    split; [by left | constructor].
  - intros t total z Htot Hinc Hgt Hover.
    unfold Py.spending_insights, Py.get_remaining_budget.
    rewrite Htot. cbn [Py.bind].
    destruct (Py.sub (Py.income t) total) as [rem|[|k]] eqn:Hsub;
      cbn [Py.bind].
    + rewrite Hgt, Hinc. unfold Py.mul, Py.arith, Py.lit_0_8. simpl.
      by rewrite Hover.
    + reflexivity.
    + exfalso. revert Hsub. rewrite Hinc. unfold Py.sub, Py.arith.
      destruct total as [b|fb]; simpl; [done|]. by rewrite Hover.
Qed.

Lemma spending_insights_ladder_witness :
  ∃ total,
    Py.get_total_expenses at_80_percent = Py.Ret total ∧
    ("success"%string = "warning"%string ↔
       Py.gt total (Py.income at_80_percent) = true) ∧
    ("success"%string = "caution"%string ↔
       Py.gt total (Py.income at_80_percent) = false ∧
       ∃ limit, Py.mul (Py.income at_80_percent) Py.lit_0_8 = Py.Ret limit ∧
                Py.gt total limit = true) ∧
    ("success"%string = "success"%string ↔
       Py.gt total (Py.income at_80_percent) = false ∧
       ∃ limit, Py.mul (Py.income at_80_percent) Py.lit_0_8 = Py.Ret limit ∧
                Py.gt total limit = false).
Proof.
  destruct spending_insights_ladder as [Hladder _].
  apply (Hladder at_80_percent
           (Py.mkInsights (Py.Int 1000) (Py.Int 800) (Py.Int 200)
              msg_success "success")).
  vm_compute. reflexivity.
Defined.

(** The ladder on three sessions: 850 of 1000 spent, 1200 of 1000 spent,
    and 50 spent with no income. *)
Example insights_850_of_1000 :
  Py.status_of (Py.spending_insights
    (Py.run [Py.AddIncome (Py.Int 1000);
             Py.AddExpense (Py.Int 850) "Food" 0] Py.init))
  = Py.Ret "caution"%string.
Proof. vm_compute. reflexivity. Qed.

Example insights_1200_of_1000 :
  Py.status_of (Py.spending_insights
    (Py.run [Py.AddIncome (Py.Int 1000);
             Py.AddExpense (Py.Int 1200) "Rent" 0] Py.init))
  = Py.Ret "warning"%string.
Proof. vm_compute. reflexivity. Qed.

Example insights_50_of_0 :
  Py.status_of (Py.spending_insights
    (Py.run [Py.AddExpense (Py.Int 50) "Rent" 0] Py.init))
  = Py.Ret "warning"%string.
Proof. vm_compute. reflexivity. Qed.

(** ** The two boundaries of the ladder *)

(** C2, as stated, fails in both halves.  With income 1000 and expenses of
    exactly 1000 the status is "caution", not "warning".  With income
    100000000000000005 and expenses 80000000000000004, exactly 0.8 times the
    income, the status is "caution", not "success". *)
Lemma exactly_income_not_warning :
  Py.income at_100_percent = Py.Int 1000 ∧
  Py.gt (Py.income at_100_percent) (Py.Int 0) = true ∧
  Py.get_total_expenses at_100_percent = Py.Ret (Py.income at_100_percent) ∧
  Py.status_of (Py.spending_insights at_100_percent) = Py.Ret "caution"%string ∧
  Py.income big_80_percent = Py.Int 100000000000000005 ∧
  Py.get_total_expenses big_80_percent = Py.Ret (Py.Int 80000000000000004) ∧
  (10 * 80000000000000004 = 8 * 100000000000000005)%Z ∧
  Py.status_of (Py.spending_insights big_80_percent) = Py.Ret "caution"%string.
Proof. repeat split; vm_compute; reflexivity. Qed.

(** C2, amended: let [limit] be the product [income * 0.8] as Python
    computes it, and let [spending_insights] return.  When the total of the
    expenses equals [limit] and is not greater than the income, the status
    is "success", not "caution".  When the total equals the income and is
    greater than [limit], the status is "caution", not "warning". *)
Theorem spending_insights_boundaries (t : Py.BudgetTracker)
    (i : Py.Insights) (total limit : Py.num) :
  Py.spending_insights t = Py.Ret i →
  Py.get_total_expenses t = Py.Ret total →
  Py.mul (Py.income t) Py.lit_0_8 = Py.Ret limit →
  (Py.num_eq total limit = true → Py.gt total (Py.income t) = false →
     Py.status i = "success"%string) ∧
  (Py.num_eq total (Py.income t) = true → Py.gt total limit = true →
     Py.status i = "caution"%string).
Proof.
  intros Hi Htot Hmul.
  destruct (spending_insights_Ret t i Hi)
    as (total' & rem & Htot' & _ & Hcases).
  assert (total' = total) as -> by congruence.
  split.
  - intros Heq Hle. apply num_eq_not_gt in Heq.
    destruct Hcases as [[Hgt _]|(_ & limit' & Hmul' & [[Hl _]|[_ ->]])];
      [congruence | | reflexivity].
    assert (limit' = limit) as -> by congruence. congruence.
  - intros Heq Hgt. apply num_eq_not_gt in Heq.
    destruct Hcases as [[Hgt' _]|(_ & limit' & Hmul' & [[_ ->]|[Hl _]])];
      [congruence | reflexivity |].
    assert (limit' = limit) as -> by congruence. congruence.
Qed.

Lemma spending_insights_boundaries_witness :
  Py.status (Py.mkInsights (Py.Int 1000) (Py.Int 800) (Py.Int 200)
               msg_success "success") = "success"%string ∧
  Py.status (Py.mkInsights (Py.Int 1000) (Py.Int 1000) (Py.Int 0)
               msg_caution "caution") = "caution"%string.
Proof.
  split.
  - apply (spending_insights_boundaries at_80_percent
             (Py.mkInsights (Py.Int 1000) (Py.Int 800) (Py.Int 200)
                msg_success "success")
             (Py.Int 800)
             (Py.Float (S754_finite false 7036874417766400 (-43))));
      vm_compute; reflexivity.
  - apply (spending_insights_boundaries at_100_percent
             (Py.mkInsights (Py.Int 1000) (Py.Int 1000) (Py.Int 0)
                msg_caution "caution")
             (Py.Int 1000)
             (Py.Float (S754_finite false 7036874417766400 (-43))));
      vm_compute; reflexivity.
Defined.

(** ** Adding an expense, over Python's numbers *)

Lemma sum_from_int_snoc (xs : list Py.num) (a z : Z) :
  Forall Py.is_int xs →
  ∃ s, Py.sum_from (Py.Int a) xs = Py.Ret (Py.Int s) ∧
       Py.sum_from (Py.Int a) (xs ++ [Py.Int z]) = Py.Ret (Py.Int (s + z)).
Proof.
  revert a. induction xs as [|x xs IH]; intros a Hxs.
  - exists a. split; reflexivity.
  - apply Forall_cons in Hxs as [Hx Hxs].
    destruct x as [b|]; [|done].
    destruct (IH (a + b)%Z Hxs) as (s & Hs1 & Hs2).
    exists s. split; [exact Hs1 | exact Hs2].
Qed.

(** C3, as stated, fails on floats: after one expense of 1e16, a second
    expense of 1.0 in a valid category is accepted and recorded, and the
    total of the expenses is 1e16 as before. *)
Lemma add_expense_total_not_raised :
  (Py.add_expense one_float_expense Py.f_1 "Food" 1).1 = true ∧
  Py.gt Py.f_1 (Py.Int 0) = true ∧
  Py.get_total_expenses one_float_expense = Py.Ret Py.f_1e16 ∧
  Py.get_total_expenses (Py.add_expense one_float_expense Py.f_1 "Food" 1).2
    = Py.Ret Py.f_1e16.
Proof. repeat split; vm_compute; reflexivity. Qed.

(** C3, amended: with a category of [categories], [add_expense] returns
    [True], the expense list is the old one followed by the one new record
    (amount, category, the clock's instant), and nothing else changes; when
    the amount and the amounts recorded so far are all [int]s, the total of
    the expenses grows by exactly the amount. *)
Theorem add_expense_valid (t : Py.BudgetTracker) (amt : Py.num)
    (cat : string) (now : Z) :
  cat ∈ Py.categories t →
  ∃ t', Py.add_expense t amt cat now = (true, t') ∧
        Py.view_expenses t'
          = Py.view_expenses t ++ [Py.mkExpense amt cat now] ∧
        Py.income t' = Py.income t ∧
        Py.categories t' = Py.categories t ∧
        (∀ z, amt = Py.Int z →
              Forall (λ e, Py.is_int (Py.amount e)) (Py.expenses t) →
              ∃ s, Py.get_total_expenses t = Py.Ret (Py.Int s) ∧
                   Py.get_total_expenses t' = Py.Ret (Py.Int (s + z))).
Proof.
  intros Hin. unfold Py.add_expense.
  rewrite bool_decide_eq_false_2 by (intros Hn; exact (Hn Hin)).
  eexists. split; [reflexivity|].
  split; [reflexivity|]. split; [reflexivity|]. split; [reflexivity|].
  intros z -> Hall.
  unfold Py.get_total_expenses, Py.py_sum. cbn [Py.expenses].
  rewrite fmap_app.
  apply (sum_from_int_snoc (Py.amount <$> Py.expenses t) 0 z).
  by apply Forall_fmap.
Qed.

Lemma add_expense_valid_witness :
  ∃ t', Py.add_expense at_80_percent (Py.Int 50) "Rent" 7 = (true, t') ∧
        Py.view_expenses t'
          = Py.view_expenses at_80_percent
              ++ [Py.mkExpense (Py.Int 50) "Rent" 7] ∧
        Py.income t' = Py.income at_80_percent ∧
        Py.categories t' = Py.categories at_80_percent ∧
        (∀ z, Py.Int 50 = Py.Int z →
              Forall (λ e, Py.is_int (Py.amount e)) (Py.expenses at_80_percent) →
              ∃ s, Py.get_total_expenses at_80_percent = Py.Ret (Py.Int s) ∧
                   Py.get_total_expenses t' = Py.Ret (Py.Int (s + z))).
Proof.
  apply (add_expense_valid at_80_percent (Py.Int 50) "Rent" 7).
  apply (bool_decide_eq_true_1 ("Rent"%string ∈ default_categories)).
  reflexivity.
Defined.

(** The total goes from 800 to 850. *)
Example add_expense_800_then_50 :
  Py.get_total_expenses at_80_percent = Py.Ret (Py.Int 800) ∧
  Py.get_total_expenses (Py.add_expense at_80_percent (Py.Int 50) "Rent" 7).2
    = Py.Ret (Py.Int 850).
Proof. split; reflexivity. Qed.

(** ** The income accumulator *)







Lemma Py_run_AddIncome_int (l : list Z) (t : Py.BudgetTracker) (z : Z) :
  Py.income t = Py.Int z →
  Py.income (Py.run ((λ a, Py.AddIncome (Py.Int a)) <$> l) t)
    = Py.Int (z + foldr Z.add 0%Z l).
Proof.
  revert t z. induction l as [|a l IH]; intros t z Hz.
  - simpl. rewrite Hz. f_equal. lia.
  - cbn [fmap list_fmap Py.run fold_left].
    change (fold_left Py.step ?ops ?s) with (Py.run ops s).
    rewrite (IH _ (z + a)%Z).
    + simpl. f_equal. lia.
    + unfold Py.step, Py.call, Py.add_income. rewrite Hz. reflexivity.
Qed.

Lemma foldr_Zadd_Permutation (l l' : list Z) :
  l ≡ₚ l' → foldr Z.add 0%Z l = foldr Z.add 0%Z l'.
Proof.
  induction 1 as [|x l l' _ IH|x y l|l l' l'' _ IH1 _ IH2]; simpl; lia.
Qed.

(** The floats [0.1], [0.2], [0.3] and [1.0] are the binary64 values that
    the correctly rounded quotients 1/10, 2/10, 3/10 and 1/1 give. *)
Lemma float_literals :
  SFdiv Py.prec Py.emax (S754_finite false 4503599627370496 (-52))
    (S754_finite false 5629499534213120 (-49))
    = S754_finite false 7205759403792794 (-56) ∧
  Py.float_of_int 10 = Py.Ret (S754_finite false 5629499534213120 (-49)) ∧
  Py.float_of_int 1 = Py.Ret (S754_finite false 4503599627370496 (-52)) ∧
  Py.bind (Py.float_of_int 1) (λ a, Py.bind (Py.float_of_int 10) (λ b,
    Py.Ret (Py.Float (SFdiv Py.prec Py.emax a b)))) = Py.Ret Py.f_0_1 ∧
  Py.bind (Py.float_of_int 2) (λ a, Py.bind (Py.float_of_int 10) (λ b,
    Py.Ret (Py.Float (SFdiv Py.prec Py.emax a b)))) = Py.Ret Py.f_0_2 ∧
  Py.bind (Py.float_of_int 3) (λ a, Py.bind (Py.float_of_int 10) (λ b,
    Py.Ret (Py.Float (SFdiv Py.prec Py.emax a b)))) = Py.Ret Py.f_0_3 ∧
  Py.bind (Py.float_of_int 1) (λ a, Py.Ret (Py.Float a)) = Py.Ret Py.f_1 ∧
  Py.bind (Py.float_of_int (10 ^ 16)) (λ a, Py.Ret (Py.Float a))
    = Py.Ret Py.f_1e16.
Proof. repeat split; vm_compute; reflexivity. Qed.

(** C8, as stated, fails on floats: the incomes 0.1, 0.2, 0.3 entered in
    this order leave 0.6000000000000001, and entered in the opposite order
    leave 0.6. *)
Lemma add_income_order_matters :
  Py.income (Py.run [Py.AddIncome Py.f_0_1; Py.AddIncome Py.f_0_2;
                     Py.AddIncome Py.f_0_3] Py.init)
    = Py.Float (S754_finite false 5404319552844596 (-53)) ∧
  Py.income (Py.run [Py.AddIncome Py.f_0_3; Py.AddIncome Py.f_0_2;
                     Py.AddIncome Py.f_0_1] Py.init)
    = Py.Float (S754_finite false 5404319552844595 (-53)) ∧
  Py.gt (Py.Float (S754_finite false 5404319552844596 (-53)))
        (Py.Float (S754_finite false 5404319552844595 (-53))) = true.
Proof. repeat split; vm_compute; reflexivity. Qed.

(** C8, amended: for [int] amounts a1, ..., an, after [add_income a1], ...,
    [add_income an] on a fresh tracker the income is the [int]
    a1 + ... + an, and any other order of the same calls gives the same
    income. *)
Theorem add_income_order_independent (l l' : list Z) :
  l ≡ₚ l' →
  Py.income (Py.run ((λ a, Py.AddIncome (Py.Int a)) <$> l) Py.init)
    = Py.Int (foldr Z.add 0%Z l) ∧
  Py.income (Py.run ((λ a, Py.AddIncome (Py.Int a)) <$> l') Py.init)
    = Py.income (Py.run ((λ a, Py.AddIncome (Py.Int a)) <$> l) Py.init).
Proof.
  intros Hp.
  rewrite !(Py_run_AddIncome_int _ Py.init 0 eq_refl).
  rewrite (foldr_Zadd_Permutation l l' Hp). done.
Qed.

Lemma add_income_order_independent_witness :
  Py.income (Py.run ((λ a, Py.AddIncome (Py.Int a)) <$> [100; 250; 40]%Z)
               Py.init)
    = Py.Int (foldr Z.add 0%Z [100; 250; 40]%Z) ∧
  Py.income (Py.run ((λ a, Py.AddIncome (Py.Int a)) <$> [250; 40; 100]%Z)
               Py.init)
    = Py.income (Py.run ((λ a, Py.AddIncome (Py.Int a)) <$> [100; 250; 40]%Z)
                   Py.init).
Proof.
  apply (add_income_order_independent [100; 250; 40]%Z [250; 40; 100]%Z).
  apply (Permutation_cons_append [250; 40]%Z 100%Z).
Defined.

(** ** The alert of the insights section *)

(** X16: whenever [spending_insights] returns, the page shows the
    overspending text with [st.error] exactly when the total of the
    expenses is greater than the income, the nearing-limit text with
    [st.warning] exactly when it is not but is greater than the product
    [income * 0.8] as Python computes it, and the on-track text with
    [st.success] in every other case: the [else] branch only ever sees the
    status "success". *)
Theorem insights_alert_ladder (t : Py.BudgetTracker) (i : Py.Insights) :
  Py.spending_insights t = Py.Ret i →
  ∃ total,
    Py.get_total_expenses t = Py.Ret total ∧
    (Py.insights_alert i = Py.StError msg_warning ↔
       Py.gt total (Py.income t) = true) ∧
    (Py.insights_alert i = Py.StWarning msg_caution ↔
       Py.gt total (Py.income t) = false ∧
       ∃ limit, Py.mul (Py.income t) Py.lit_0_8 = Py.Ret limit ∧
                Py.gt total limit = true) ∧
    (Py.insights_alert i = Py.StSuccess msg_success ↔
       Py.gt total (Py.income t) = false ∧
       ∃ limit, Py.mul (Py.income t) Py.lit_0_8 = Py.Ret limit ∧
                Py.gt total limit = false) ∧
    Py.insights_alert i
      ∈ [Py.StError msg_warning; Py.StWarning msg_caution;
         Py.StSuccess msg_success].
Proof.
  intros Hi.
  destruct (spending_insights_Ret t i Hi)
    as (total & rem & Htot & _ & Hcases).
  exists total. split; [exact Htot|].
  destruct Hcases as [[Hgt ->]|(Hgt & limit & Hmul & [[Hl ->]|[Hl ->]])];
    unfold Py.insights_alert; cbn [Py.status Py.message]; simpl;
    rewrite Hgt; (split; [|split; [|split; [|set_solver]]]); split;
    try done; try (intros [? _]; done);
    try (intros _; split; [done|]; by exists limit);
    intros (_ & limit' & Hmul' & Hl'); congruence.
Qed.

Lemma insights_alert_ladder_witness :
  ∃ total,
    Py.get_total_expenses at_100_percent = Py.Ret total ∧
    (Py.StWarning msg_caution = Py.StError msg_warning ↔
       Py.gt total (Py.income at_100_percent) = true) ∧
    (Py.StWarning msg_caution = Py.StWarning msg_caution ↔
       Py.gt total (Py.income at_100_percent) = false ∧
       ∃ limit, Py.mul (Py.income at_100_percent) Py.lit_0_8 = Py.Ret limit ∧
                Py.gt total limit = true) ∧
    (Py.StWarning msg_caution = Py.StSuccess msg_success ↔
       Py.gt total (Py.income at_100_percent) = false ∧
       ∃ limit, Py.mul (Py.income at_100_percent) Py.lit_0_8 = Py.Ret limit ∧
                Py.gt total limit = false) ∧
    Py.StWarning msg_caution
      ∈ [Py.StError msg_warning; Py.StWarning msg_caution;
         Py.StSuccess msg_success].
Proof.
  apply (insights_alert_ladder at_100_percent
           (Py.mkInsights (Py.Int 1000) (Py.Int 1000) (Py.Int 0)
              msg_caution "caution")).
  vm_compute. reflexivity.
Defined.

(** ** An append through the list of [view_expenses], later on *)



